(** * ESP32 radio server: the request handlers of [server.py]

    A shallow embedding of the three Flask handlers ([get_song],
    [list_stations], [health]) and of the song table [SONGS] they read,
    and of the command-line client of [test_server.py] ([make_request],
    [print_json], [main]) that calls them over HTTP, followed by the
    properties of the request-handling contract and of the client run
    against the server. *)

From Stdlib Require Import Ascii.
From stdpp Require Import gmap strings list fin_maps pretty sorting.

#[local] Set Warnings "-register-all".
#[local] Open Scope string_scope.
#[local] Open Scope Z_scope.

(** ** Data model *)

(** One entry of [SONGS]: a dict literal with the three keys ["name"],
    ["frequencies"] (Hz) and ["durations"] (ms).  Every entry carries all
    three, so the subscripts [song["name"]], [song_data["frequencies"]] and
    [song_data["durations"]] are the projections and raise nothing. *)
Record Song := mkSong {
  name : string;
  frequencies : list Z;
  durations : list Z
}.

(** JSON documents, as [jsonify] emits them.  An object is a finite map
    from member names to values: member order carries no meaning. *)
Inductive json :=
| JNumber (n : Z)
| JString (s : string)
| JArray (l : list json)
| JObject (m : gmap string json).

(** A Python list of ints, serialised. *)
Definition json_ints (l : list Z) : json := JArray (JNumber <$> l).

(** What a handler hands back to Flask: [jsonify(...)] alone is status 200,
    [jsonify(...), code] carries its own status. *)
Record Response := mkResponse {
  status : Z;
  body : json
}.

(** [jsonify({"error": msg}), code] *)
Definition error_response (msg : string) (code : Z) : Response :=
  mkResponse code (JObject {[ "error" := JString msg ]}).

(** ** The song table (server.py, lines 17-68) *)

Definition SONGS : gmap Z Song :=
  {[ 0 := mkSong "C Major Scale"
            [262; 294; 330; 349; 392; 440; 494; 523]
            [500; 500; 500; 500; 500; 500; 500; 500];
     1 := mkSong "Twinkle Twinkle Little Star"
            [262; 262; 392; 392; 440; 440; 392; 349; 349; 330; 330; 294; 294; 262]
            [500; 500; 500; 500; 500; 500; 1000; 500; 500; 500; 500; 500; 500; 1000];
     2 := mkSong "Happy Birthday"
            [262; 262; 294; 262; 349; 330; 262; 262; 294; 262; 392; 349; 262; 262; 523; 440; 349; 330; 294]
            [250; 250; 500; 500; 500; 1000; 250; 250; 500; 500; 500; 1000; 250; 250; 500; 500; 500; 500; 1000];
     3 := mkSong "Jingle Bells"
            [330; 330; 330; 330; 330; 330; 330; 392; 262; 294; 330; 349; 349; 349; 349; 349; 330; 330; 330; 294; 294; 330; 294; 392]
            [500; 500; 1000; 500; 500; 1000; 500; 500; 500; 500; 2000; 500; 500; 500; 500; 500; 500; 500; 250; 250; 500; 500; 500; 500];
     4 := mkSong "Mario Theme"
            [659; 659; 0; 659; 0; 523; 659; 0; 784; 0; 392; 0; 523; 0; 392; 0; 330; 0; 440; 0; 494; 0; 466; 0; 392; 0; 659; 0; 784; 0; 880; 0; 698; 0; 784; 0; 659; 0; 523; 0; 587; 0; 494]
            [150; 300; 150; 300; 300; 300; 300; 300; 300; 300; 300; 150; 300; 150; 300; 300; 300; 300; 300; 150; 300; 150; 300; 300; 300; 300; 300; 300; 300; 300; 300; 300; 300; 150; 300; 150; 300; 300; 300; 300; 300; 300; 300];
     5 := mkSong "Star Wars Theme"
            [440; 440; 440; 349; 523; 440; 349; 523; 440; 659; 659; 659; 698; 523; 415; 349; 523; 440]
            [500; 500; 500; 350; 150; 500; 350; 150; 650; 500; 500; 500; 350; 150; 500; 350; 150; 650];
     6 := mkSong "Fur Elise"
            [659; 622; 659; 622; 659; 494; 587; 523; 440; 0; 262; 330; 440; 494; 0; 330; 415; 494; 523; 0; 330; 440; 523; 587]
            [200; 200; 200; 200; 200; 200; 200; 200; 400; 200; 200; 200; 200; 400; 200; 200; 200; 200; 400; 200; 200; 200; 200; 400];
     7 := mkSong "Ode to Joy"
            [392; 392; 440; 392; 523; 494; 392; 392; 440; 392; 349; 330; 392; 392; 440; 392; 523; 494; 440; 349; 349; 330; 294; 262]
            [500; 500; 500; 500; 500; 1000; 500; 500; 500; 500; 500; 1000; 500; 500; 500; 500; 500; 1000; 500; 500; 500; 500; 500; 1000];
     8 := mkSong "Canon in D"
            [294; 330; 349; 392; 440; 392; 349; 330; 294; 330; 349; 392; 440; 494; 523; 494; 440; 392]
            [600; 600; 600; 600; 600; 600; 600; 600; 1200; 600; 600; 600; 600; 600; 600; 600; 600; 1200];
     9 := mkSong "Chromatic Scale"
            [262; 277; 294; 311; 330; 349; 370; 392; 415; 440; 466; 494; 523]
            [400; 400; 400; 400; 400; 400; 400; 400; 400; 400; 400; 400; 400] ]}.

(** ** Handler computations

    A handler runs against the module-level table (the only state of the
    process) and either returns a value or raises an exception, carried
    here by its message [str(e)]. *)

Definition Handler (A : Type) : Type :=
  gmap Z Song → (string + A) * gmap Z Song.

#[global] Instance Handler_ret : MRet Handler :=
  λ A x songs, (inr x, songs).

#[global] Instance Handler_bind : MBind Handler :=
  λ A B f m songs,
    match m songs with
    | (inr x, songs') => f x songs'
    | (inl e, songs') => (inl e, songs')
    end.

(** Reading the global [SONGS]. *)
Definition read_SONGS : Handler (gmap Z Song) :=
  λ songs, (inr songs, songs).

(** [raise Exception(msg)] *)
Definition raise {A} (msg : string) : Handler A :=
  λ songs, (inl msg, songs).

(** [try: m except Exception as e: h(str(e))] *)
Definition try_except {A} (m : Handler A) (h : string → Handler A) : Handler A :=
  λ songs,
    match m songs with
    | (inr x, songs') => (inr x, songs')
    | (inl e, songs') => h e songs'
    end.

(** ** The request *)

(** [request.args]: the decoded query pairs, in the order they were sent. *)
Definition Args : Type := list (string * string).

(** [request.args[key]]: the first value sent under [key], if any. *)
Fixpoint args_lookup (args : Args) (key : string) : option string :=
  match args with
  | [] => None
  | (k, v) :: rest => if decide (k = key) then Some v else args_lookup rest key
  end.

(** The response [get_song] settles on for a converted parameter, branch
    by branch; [get_song_run] below shows the handler computes exactly it. *)
Definition song_answer (songs : gmap Z Song) (station : option Z) : Response :=
  match station with
  | None => error_response "Missing station parameter" 400
  | Some n =>
    if bool_decide (n < 0 ∨ n > 9) then
      error_response "Station must be between 0 and 9" 400
    else
      match songs !! n with
      | None => error_response ("Station " +:+ pretty n +:+ " not found") 404
      | Some s =>
        mkResponse 200
          (JObject {[ "frequencies" := json_ints (frequencies s);
                      "durations" := json_ints (durations s) ]})
      end
  end.

(** A song is well formed when its two sequences pair up, are not empty,
    hold no negative frequency and only positive durations. *)
Definition song_ok (s : Song) : Prop :=
  length (frequencies s) = length (durations s)
  ∧ (0 < length (frequencies s))%nat
  ∧ Forall (λ f, 0 ≤ f) (frequencies s)
  ∧ Forall (λ d, 0 < d) (durations s).

#[global] Instance song_ok_dec s : Decision (song_ok s).
Proof. unfold song_ok. apply _. Defined.

Section handlers.

(** Python's builtin [int] applied to the text of a query value: [Some n]
    for the integer read, [None] where [int] raises [ValueError]. *)
Variable int : string → option Z.

(** [request.args.get(key, type=int)]: the default [None] when the key is
    absent, and also when the conversion raises. *)
Definition args_get_int (args : Args) (key : string) : option Z :=
  match args_lookup args key with
  | None => None
  | Some rv => int rv
  end.

(** [get_song] (server.py, lines 71-100), serving [GET /song]. *)
Definition get_song (args : Args) : Handler Response :=
  try_except
    (let station := args_get_int args "station" in
     match station with
     | None => mret (error_response "Missing station parameter" 400)
     | Some station =>
       if bool_decide (station < 0 ∨ station > 9) then
         mret (error_response "Station must be between 0 and 9" 400)
       else
         songs ← read_SONGS;
         match songs !! station with
         | None =>
           mret (error_response ("Station " +:+ pretty station +:+ " not found") 404)
         | Some song_data =>
           let response : gmap string json :=
             {[ "frequencies" := json_ints (frequencies song_data);
                "durations" := json_ints (durations song_data) ]} in
           mret (mkResponse 200 (JObject response))
         end
     end)
    (λ e, mret (error_response e 500)).

(** [list_stations] (server.py, lines 103-112), serving [GET /stations].
    The comprehension builds a dict keyed by the integer ids; [jsonify]
    writes each key as [str(station)]. *)
Definition list_stations : Handler Response :=
  songs ← read_SONGS;
  let stations_info : gmap Z json :=
    (λ song, JObject {[ "name" := JString (name song) ]}) <$> songs in
  mret (mkResponse 200 (JObject (kmap pretty stations_info))).

(** [health] (server.py, lines 115-120), serving [GET /health]. *)
Definition health : Handler Response :=
  songs ← read_SONGS;
  mret (mkResponse 200
          (JObject {[ "status" := JString "ok";
                      "stations" := JNumber (Z.of_nat (size songs)) ]})).

(** The three routes registered with [@app.route]. *)
Inductive Request :=
| GET_song (args : Args)
| GET_stations
| GET_health.

Definition dispatch (r : Request) : Handler Response :=
  match r with
  | GET_song args => get_song args
  | GET_stations => list_stations
  | GET_health => health
  end.

(** The process answering a run of requests one after the other, each
    against the table as the previous one left it. *)
Fixpoint serve (rs : list Request) : Handler (list Response) :=
  match rs with
  | [] => mret []
  | r :: rest =>
    resp ← dispatch r;
    resps ← serve rest;
    mret (resp :: resps)
  end.

End handlers.

(** A reader for the numerals a client writes with [str(n)]: an optional
    sign and then one or more ASCII digits.  Python's [int] reads these the
    same way (and accepts more spellings besides); the results below are
    proved for any reader and instantiated with this one. *)
Definition digit_of (a : ascii) : option Z :=
  let n := Z.of_N (N_of_ascii a) in
  if bool_decide (48 ≤ n ≤ 57) then Some (n - 48) else None.

Fixpoint digits_value (acc : Z) (s : string) : option Z :=
  match s with
  | EmptyString => Some acc
  | String a s' =>
    match digit_of a with
    | None => None
    | Some d => digits_value (10 * acc + d) s'
    end
  end.

Definition unsigned_int (s : string) : option Z :=
  match s with
  | EmptyString => None
  | _ => digits_value 0 s
  end.

Definition int_ascii (s : string) : option Z :=
  match s with
  | String "-"%char s' => Z.opp <$> unsigned_int s'
  | String "+"%char s' => unsigned_int s'
  | _ => unsigned_int s
  end.

(** ** The test client (test_server.py)

    The client prints lines and either runs to its end, leaves through
    [sys.exit], or dies of an exception nobody catches.  A computation
    threads the lines printed so far, one entry per [print] call. *)

Inductive PyExc :=
| JSONDecodeError
| AttributeError
| TypeError
| KeyError
| ValueError
| OtherError (what : string).

Inductive Stop :=
| SysExit (code : Z)
| Uncaught (exc : PyExc).

Definition Client (A : Type) : Type :=
  list string → (Stop + A) * list string.

#[global] Instance Client_ret : MRet Client :=
  λ A x out, (inr x, out).

#[global] Instance Client_bind : MBind Client :=
  λ A B f m out,
    match m out with
    | (inr x, out') => f x out'
    | (inl stop, out') => (inl stop, out')
    end.

(** [print(line)] *)
Definition print (line : string) : Client unit :=
  λ out, (inr (), (out ++ [line])%list).

(** [sys.exit(code)] *)
Definition sys_exit {A} (code : Z) : Client A :=
  λ out, (inl (SysExit code), out).

(** An exception that no [except] clause of the client matches. *)
Definition uncaught {A} (exc : PyExc) : Client A :=
  λ out, (inl (Uncaught exc), out).

(** [for x in l: body(x)] *)
Fixpoint for_each {A} (l : list A) (body : A → Client unit) : Client unit :=
  match l with
  | [] => mret ()
  | x :: rest => body x;; for_each rest body
  end.

(** What [urllib.request.urlopen(req, timeout=5)] and the read of the body
    come to, as [make_request] tells the cases apart.  A body is given as
    [json.loads] decodes it, [None] where decoding raises; documents are
    those of [json] (integers, strings, arrays, objects). *)
Inductive Reply :=
| Reply_ok (status : Z) (data : option json)
| Reply_HTTPError (code : Z) (fp : option (option json))
| Reply_URLError (reason : string)
| Reply_raises (exc : PyExc).

(** The parsed command line: [--host], [--port], [--station], [--health]
    and [--all]. *)
Record CliArgs := mkCliArgs {
  arg_host : string;
  arg_port : Z;
  arg_station : option Z;
  arg_health : bool;
  arg_all : bool
}.

(** [d.get(key, dflt)]: only a dict has [get]. *)
Definition py_get (d : json) (key : string) (dflt : json) : Client json :=
  match d with
  | JObject m => mret (default dflt (m !! key))
  | _ => uncaught AttributeError
  end.

(** [d[key]] with a string key: [KeyError] on a dict without it,
    [TypeError] on anything that is not a dict. *)
Definition py_subscript (d : json) (key : string) : Client json :=
  match d with
  | JObject m =>
    match m !! key with
    | Some v => mret v
    | None => uncaught KeyError
    end
  | _ => uncaught TypeError
  end.

(** [len(v)]: an integer has no length; a string counts its characters. *)
Definition py_len (v : json) : Client nat :=
  match v with
  | JArray l => mret (length l)
  | JObject m => mret (size m)
  | JString s => mret (String.length s)
  | JNumber _ => uncaught TypeError
  end.

(** [sorted(..., key=...)] on entries already paired with their key:
    ascending, entries of equal key in the order they came. *)
Fixpoint insert_by_key (x : Z * string) (l : list (Z * string)) : list (Z * string) :=
  match l with
  | [] => [x]
  | y :: l' =>
    if bool_decide (x.1 ≤ y.1) then x :: y :: l' else y :: insert_by_key x l'
  end.

Definition sorted_by_key (l : list (Z * string)) : list (Z * string) :=
  foldr insert_by_key [] l.

(** The newline inside ["\nAll stations fetched successfully."]. *)
Definition newline : string := String "010"%char "".

Section client.

(** Python's builtin [int] on text, as for the server. *)
Variable int : string → option Z.

(** The network: what opening a URL comes to. *)
Variable urlopen : string → Reply.

(** [json.dumps(data, indent=2)] *)
Variable dumps : json → string.

(** The keys of a decoded object in the order of the document, which
    [data.keys()] walks. *)
Variable dict_keys : gmap string json → list string.

(** [repr] of a list or dict, for a value that an f-string shows. *)
Variable py_repr : json → string.

(** [str(v)], which an f-string applies to the value of a field. *)
Definition py_str (v : json) : string :=
  match v with
  | JString s => s
  | JNumber n => pretty n
  | _ => py_repr v
  end.

(** [make_request] (test_server.py, lines 22-35). *)
Definition make_request (url : string) : Client (Z * json) :=
  match urlopen url with
  | Reply_ok status (Some data) => mret (status, data)
  | Reply_ok _ None => uncaught JSONDecodeError
  | Reply_HTTPError code (Some (Some body)) => mret (code, body)
  | Reply_HTTPError _ (Some None) => uncaught JSONDecodeError
  | Reply_HTTPError code None => mret (code, JObject ∅)
  | Reply_URLError reason =>
    print ("Error: Could not connect to server at " +:+ url);;
    print ("  Reason: " +:+ reason);;
    sys_exit 1
  | Reply_raises exc => uncaught exc
  end.

(** [print_json] (test_server.py, lines 38-40). *)
Definition print_json (data : json) : Client unit :=
  print (dumps data).

(** [[int(k) for k in keys]], which [sorted] computes before it orders
    anything: the first key that [int] refuses ends the program. *)
Fixpoint int_keys (keys : list string) : Client (list (Z * string)) :=
  match keys with
  | [] => mret []
  | k :: rest =>
    match int k with
    | None => uncaught ValueError
    | Some n => keyed ← int_keys rest; mret ((n, k) :: keyed)
    end
  end.

(** [sorted(data.keys(), key=int)] *)
Definition sorted_keys (data : json) : Client (list string) :=
  match data with
  | JObject m => keyed ← int_keys (dict_keys m); mret ((sorted_by_key keyed).*2)
  | _ => uncaught AttributeError
  end.

(** [main] (test_server.py, lines 43-92), from the parsed arguments on. *)
Definition main (args : CliArgs) : Client unit :=
  let base_url := "http://" +:+ arg_host args +:+ ":" +:+ pretty (arg_port args) in
  if arg_health args then
    print ("GET " +:+ base_url +:+ "/health");;
    '(status, data) ← make_request (base_url +:+ "/health");
    print ("Status: " +:+ pretty status);;
    print_json data
  else
    match arg_station args with
    | Some station =>
      let url := base_url +:+ "/song?station=" +:+ pretty station in
      print ("GET " +:+ url);;
      '(status, data) ← make_request url;
      print ("Status: " +:+ pretty status);;
      print_json data
    | None =>
      if arg_all args then
        print ("GET " +:+ base_url +:+ "/stations");;
        '(status, stations) ← make_request (base_url +:+ "/stations");
        print ("Status: " +:+ pretty status);;
        print_json stations;;
        print "";;
        for_each (seqZ 0 10) (λ i,
          let url := base_url +:+ "/song?station=" +:+ pretty i in
          print ("GET " +:+ url);;
          '(status, data) ← make_request url;
          info ← py_get stations (pretty i) (JObject ∅);
          name ← py_get info "name" (JString "Unknown");
          notes ← py_get data "frequencies" (JArray []);
          count ← py_len notes;
          print ("  Station " +:+ pretty i +:+ " (" +:+ py_str name +:+ "): "
                 +:+ pretty count +:+ " notes"));;
        print (newline +:+ "All stations fetched successfully.")
      else
        print ("GET " +:+ base_url +:+ "/stations");;
        '(status, data) ← make_request (base_url +:+ "/stations");
        print ("Status: " +:+ pretty status);;
        print "";;
        station_ids ← sorted_keys data;
        for_each station_ids (λ station_id,
          info ← py_subscript data station_id;
          name ← py_subscript info "name";
          print ("  Station " +:+ station_id +:+ ": " +:+ py_str name))
    end.

End client.

(** ** Client and server on one wire *)

(** How [urlopen] reports a response of the server: a 2xx status returns
    normally, any other raises [HTTPError] with the body attached; the body
    decodes to the document [jsonify] wrote. *)
Definition on_wire (resp : Response) : Reply :=
  if bool_decide (200 ≤ status resp < 300) then
    Reply_ok (status resp) (Some (body resp))
  else
    Reply_HTTPError (status resp) (Some (Some (body resp))).

(** The network carries the three routes of a server that holds [songs]
    under the address [base_url]. *)
Definition serves (int : string → option Z) (urlopen : string → Reply)
    (base_url : string) (songs : gmap Z Song) : Prop :=
  (∀ resp, fst (health songs) = inr resp →
           urlopen (base_url +:+ "/health") = on_wire resp)
  ∧ (∀ resp, fst (list_stations songs) = inr resp →
             urlopen (base_url +:+ "/stations") = on_wire resp)
  ∧ (∀ (n : Z) resp,
       fst (get_song int [("station", pretty n)] songs) = inr resp →
       urlopen (base_url +:+ "/song?station=" +:+ pretty n) = on_wire resp).

(** A network of one such server, to instantiate the results: a URL under
    [base_url] goes to the route of its path, the text after
    ["/song?station="] being the value of the parameter. *)
Fixpoint strip_prefix (p s : string) : option string :=
  match p, s with
  | EmptyString, _ => Some s
  | String a p', String b s' => if decide (a = b) then strip_prefix p' s' else None
  | String _ _, EmptyString => None
  end.

Definition handler_reply (h : Handler Response) (songs : gmap Z Song) : Reply :=
  match fst (h songs) with
  | inr resp => on_wire resp
  | inl _ => Reply_HTTPError 500 (Some None)
  end.

Definition loopback (int : string → option Z) (songs : gmap Z Song)
    (base_url url : string) : Reply :=
  match strip_prefix base_url url with
  | None => Reply_URLError "unreachable"
  | Some path =>
    match strip_prefix "/song?station=" path with
    | Some value => handler_reply (get_song int [("station", value)]) songs
    | None =>
      if decide (path = "/health") then handler_reply health songs
      else if decide (path = "/stations") then handler_reply list_stations songs
      else Reply_HTTPError 404 (Some None)
    end
  end.


(** ** The reader and the exception layer on examples *)

Example int_ascii_numerals :
  int_ascii "0" = Some 0 ∧ int_ascii "9" = Some 9 ∧ int_ascii "10" = Some 10
  ∧ int_ascii "-1" = Some (-1) ∧ int_ascii "+4" = Some 4.
Proof. repeat split. Qed.

Example int_ascii_rejects :
  int_ascii "" = None ∧ int_ascii "-" = None ∧ int_ascii "ten" = None
  ∧ int_ascii "4.0" = None ∧ int_ascii "1 2" = None.
Proof. repeat split. Qed.

Lemma try_except_raise {A} (msg : string) (h : string → Handler A) songs :
  try_except (raise msg) h songs = h msg songs.
Proof. reflexivity. Qed.

Lemma args_lookup_first (k v : string) (rest : Args) :
  args_lookup ((k, v) :: rest) k = Some v.
Proof. simpl. by rewrite decide_True. Qed.

(** ** Facts about the table *)

Lemma SONGS_song_ok : map_Forall (λ _ s, song_ok s) SONGS.
Proof. apply (bool_decide_unpack _). vm_compute. exact I. Qed.

Lemma SONGS_named : map_Forall (λ _ s, name s ≠ "") SONGS.
Proof. apply (bool_decide_unpack _). vm_compute. exact I. Qed.

Lemma SONGS_size : size SONGS = 10%nat.
Proof. vm_compute. reflexivity. Qed.

Lemma SONGS_dom : dom SONGS = list_to_set (seqZ 0 10).
Proof. apply (bool_decide_unpack _). vm_compute. exact I. Qed.

Lemma SONGS_populated (id : Z) : 0 ≤ id ≤ 9 ↔ is_Some (SONGS !! id).
Proof.
  rewrite <- elem_of_dom, SONGS_dom, elem_of_list_to_set, elem_of_seqZ. lia.
Qed.

Lemma kmap_pretty_size {A} (m : gmap Z A) :
  size (kmap (M2 := gmap string) pretty m) = size m.
Proof.
  induction m as [| i x m Hi _ IH] using map_first_key_ind.
  - by rewrite kmap_empty, !map_size_empty.
  - rewrite kmap_insert by apply _.
    rewrite !map_size_insert_None; [by rewrite IH | done |].
    apply lookup_kmap_None; [apply _ |].
    intros j Hj. apply (inj pretty) in Hj. by subst j.
Qed.

(** ** What the handlers compute *)

(** No step of [get_song] raises, so the [except] arm is never taken, and
    the table comes back as it went in. *)
Lemma get_song_run int args songs :
  get_song int args songs
  = (inr (song_answer songs (args_get_int int args "station")), songs).
Proof.
  unfold get_song, try_except, song_answer.
  destruct (args_get_int int args "station") as [n |]; [| done].
  case_bool_decide; [done |].
  unfold mbind, Handler_bind, read_SONGS.
  by destruct (songs !! n).
Qed.

Lemma list_stations_run songs :
  list_stations songs
  = (inr (mkResponse 200
            (JObject (kmap pretty
               ((λ song, JObject {[ "name" := JString (name song) ]}) <$> songs)))),
     songs).
Proof. reflexivity. Qed.

Lemma health_run songs :
  health songs
  = (inr (mkResponse 200
            (JObject {[ "status" := JString "ok";
                        "stations" := JNumber (Z.of_nat (size songs)) ]})),
     songs).
Proof. reflexivity. Qed.

(** Every route returns a response and leaves the table alone. *)
Lemma dispatch_run int r songs :
  ∃ resp, dispatch int r songs = (inr resp, songs).
Proof.
  destruct r as [args | |]; simpl.
  - rewrite get_song_run. eauto.
  - rewrite list_stations_run. eauto.
  - rewrite health_run. eauto.
Qed.

Lemma serve_run int rs songs :
  ∃ resps,
    serve int rs songs = (inr resps, songs)
    ∧ Forall2 (λ r resp, dispatch int r songs = (inr resp, songs)) rs resps.
Proof.
  induction rs as [| r rs (resps & Hserve & Hall)]; simpl.
  - exists []. split; [reflexivity | constructor].
  - destruct (dispatch_run int r songs) as [resp Hresp].
    exists (resp :: resps). split; [| by constructor].
    unfold mbind, Handler_bind. rewrite Hresp, Hserve. reflexivity.
Qed.

(** An error body tells its message and its status apart. *)
Lemma error_response_inj msg1 code1 msg2 code2 :
  error_response msg1 code1 = error_response msg2 code2 →
  msg1 = msg2 ∧ code1 = code2.
Proof.
  intros Heq. split; [| exact (f_equal status Heq)].
  apply (f_equal (λ r, match body r with
                       | JObject m => m !! "error"
                       | _ => None
                       end)) in Heq.
  simpl in Heq. rewrite !lookup_singleton_eq in Heq. congruence.
Qed.

Lemma song_answer_status songs station :
  status (song_answer songs station) = 200
  ∨ status (song_answer songs station) = 400
  ∨ status (song_answer songs station) = 404.
Proof.
  unfold song_answer. destruct station as [n |]; [| auto].
  case_bool_decide; [auto |]. destruct (songs !! n); auto.
Qed.

(** ** The request-handling contract *)

(** C1: for every station id from 0 to 9, [get_song] against the default
    table succeeds (status 200) with a payload whose frequencies and
    durations have the same, non-zero length, whose durations are all
    strictly positive and whose frequencies are never negative (0 is a
    rest). *)
Theorem get_song_payload_well_formed int (args : Args) (id : Z) :
  args_get_int int args "station" = Some id →
  0 ≤ id ≤ 9 →
  ∃ fs ds : list Z,
    get_song int args SONGS
    = (inr (mkResponse 200
              (JObject {[ "frequencies" := json_ints fs;
                          "durations" := json_ints ds ]})),
       SONGS)
    ∧ length fs = length ds
    ∧ (0 < length fs)%nat
    ∧ Forall (λ d, 0 < d) ds
    ∧ Forall (λ f, 0 ≤ f) fs.
Proof.
  intros Hstation Hid.
  destruct (proj1 (SONGS_populated id) Hid) as [s Hs].
  destruct (SONGS_song_ok id s Hs) as (Hlen & Hpos & Hfs & Hds).
  exists (frequencies s), (durations s).
  rewrite get_song_run, Hstation. unfold song_answer.
  rewrite bool_decide_eq_false_2 by lia. rewrite Hs. done.
Qed.

Lemma get_song_payload_well_formed_witness :
  ∃ fs ds : list Z,
    get_song int_ascii [("station", "3")] SONGS
    = (inr (mkResponse 200
              (JObject {[ "frequencies" := json_ints fs;
                          "durations" := json_ints ds ]})),
       SONGS)
    ∧ length fs = length ds
    ∧ (0 < length fs)%nat
    ∧ Forall (λ d, 0 < d) ds
    ∧ Forall (λ f, 0 ≤ f) fs.
Proof.
  apply (get_song_payload_well_formed int_ascii [("station", "3")] 3);
    [reflexivity | lia].
Defined.

(** C2: [get_song] answers 400 "Missing station parameter" exactly when
    the station parameter is absent or its text is not read as an integer,
    and 400 "Station must be between 0 and 9" exactly when the text is read
    as an integer below 0 or above 9; a 400 answer is always one of these
    two. *)
Theorem get_song_client_errors int (args : Args) (songs : gmap Z Song) :
  (fst (get_song int args songs)
     = inr (error_response "Missing station parameter" 400)
   ↔ args_lookup args "station" = None
     ∨ ∃ raw, args_lookup args "station" = Some raw ∧ int raw = None)
  ∧ (fst (get_song int args songs)
       = inr (error_response "Station must be between 0 and 9" 400)
     ↔ ∃ raw n, args_lookup args "station" = Some raw
                ∧ int raw = Some n ∧ (n < 0 ∨ 9 < n))
  ∧ (∀ resp, fst (get_song int args songs) = inr resp →
       status resp = 400 →
       resp = error_response "Missing station parameter" 400
       ∨ resp = error_response "Station must be between 0 and 9" 400).
Proof.
  rewrite get_song_run. simpl. unfold args_get_int, song_answer.
  destruct (args_lookup args "station") as [raw |] eqn:Hraw;
    [destruct (int raw) as [n |] eqn:Hint;
       [case_bool_decide as Hrange;
          [| destruct (songs !! n) as [s |] eqn:Hs] |] |];
    (split; [split | split; [split |]]).
  all: try (intros [= Heq]; apply error_response_inj in Heq as [Hmsg Hcode];
            discriminate).
  all: try (intros [= Heq]; discriminate).
  all: try (intros resp [= <-] Hstatus; simpl in *; by auto).
  all: try (intros [[=] | (raw' & [= <-] & Hnone)]; congruence).
  all: try (intros (raw' & n' & [= <-] & Hsome & Hout);
            assert (n' = n) by congruence; lia).
  all: try (intros (raw' & n' & [= <-] & Hsome & _); congruence).
  all: try (intros (raw' & n' & [=] & _)).
  all: try (intros _; by eauto 6).
  intros _. exists raw, n. repeat split; [done | lia].
Qed.

Lemma get_song_client_errors_witness :
  fst (get_song int_ascii [("station", "ten")] SONGS)
  = inr (error_response "Missing station parameter" 400)
  ∧ fst (get_song int_ascii [("station", "10")] SONGS)
    = inr (error_response "Station must be between 0 and 9" 400).
Proof.
  split.
  - apply (proj1 (get_song_client_errors int_ascii [("station", "ten")] SONGS)).
    right. exists "ten". split; reflexivity.
  - apply (proj1 (proj2 (get_song_client_errors int_ascii [("station", "10")] SONGS))).
    exists "10", 10. split_and!; [reflexivity | reflexivity | lia].
Defined.

(** C3: [get_song] checks in the order written.  A parameter that is
    absent or unreadable gets the missing-parameter answer whatever the
    table holds; one read as an integer outside 0..9 gets the range answer
    (not the missing-parameter one) whatever the table holds, even where
    the table has no such entry; only a value within 0..9 is looked up, and
    the answer is then decided by that entry alone. *)
Theorem get_song_validation_order int (args : Args) :
  (args_get_int int args "station" = None →
   ∀ songs, fst (get_song int args songs)
            = inr (error_response "Missing station parameter" 400))
  ∧ (∀ n, args_get_int int args "station" = Some n →
          n < 0 ∨ 9 < n →
          ∀ songs,
            fst (get_song int args songs)
            = inr (error_response "Station must be between 0 and 9" 400)
            ∧ fst (get_song int args songs)
              ≠ inr (error_response "Missing station parameter" 400))
  ∧ (∀ n, args_get_int int args "station" = Some n →
          0 ≤ n ≤ 9 →
          ∀ songs,
            fst (get_song int args songs)
            = inr (match songs !! n with
                   | None =>
                     error_response ("Station " +:+ pretty n +:+ " not found") 404
                   | Some s =>
                     mkResponse 200
                       (JObject {[ "frequencies" := json_ints (frequencies s);
                                   "durations" := json_ints (durations s) ]})
                   end)).
Proof.
  split; [| split].
  - intros Hnone songs. by rewrite get_song_run, Hnone.
  - intros n Hsome Hout songs. rewrite get_song_run, Hsome. simpl.
    rewrite bool_decide_eq_true_2 by lia. split; [done |].
    intros Heq. apply (inj inr) in Heq.
    by apply error_response_inj in Heq as [[=] _].
  - intros n Hsome Hin songs. rewrite get_song_run, Hsome. simpl.
    rewrite bool_decide_eq_false_2 by lia. done.
Qed.

Lemma get_song_validation_order_witness :
  fst (get_song int_ascii [("other", "1")] ∅)
  = inr (error_response "Missing station parameter" 400)
  ∧ fst (get_song int_ascii [("station", "10")] ∅)
    = inr (error_response "Station must be between 0 and 9" 400)
  ∧ fst (get_song int_ascii [("station", "-1")] SONGS)
    ≠ inr (error_response "Missing station parameter" 400)
  ∧ fst (get_song int_ascii [("station", "7")] ∅)
    = inr (error_response "Station 7 not found" 404).
Proof.
  split; [| split; [| split]].
  - apply (proj1 (get_song_validation_order int_ascii [("other", "1")])).
    reflexivity.
  - apply (proj1 (proj2 (get_song_validation_order int_ascii [("station", "10")]))
             10); [reflexivity | lia].
  - apply (proj1 (proj2 (get_song_validation_order int_ascii [("station", "-1")]))
             (-1)); [reflexivity | lia].
  - apply (proj2 (proj2 (get_song_validation_order int_ascii [("station", "7")]))
             7); [reflexivity | lia].
Defined.

(** C4: when [get_song] succeeds (status 200), the parameter was read as
    some station of the table, the body is an object with exactly the two
    members "frequencies" and "durations", each the stored sequence of that
    station element for element, there is no "name" member, and the table
    is left as it was. *)
Theorem get_song_success_payload int (args : Args) (songs songs' : gmap Z Song)
    (resp : Response) :
  get_song int args songs = (inr resp, songs') →
  status resp = 200 →
  songs' = songs
  ∧ ∃ (n : Z) (s : Song) (m : gmap string json),
      args_get_int int args "station" = Some n
      ∧ songs !! n = Some s
      ∧ body resp = JObject m
      ∧ dom m = {[ "frequencies"; "durations" ]}
      ∧ m !! "frequencies" = Some (JArray (JNumber <$> frequencies s))
      ∧ m !! "durations" = Some (JArray (JNumber <$> durations s))
      ∧ m !! "name" = None.
Proof.
  rewrite get_song_run. intros [= <- <-] Hstatus. split; [done |].
  unfold song_answer in *.
  destruct (args_get_int int args "station") as [n |]; [| done].
  case_bool_decide; [done |].
  destruct (songs !! n) as [s |] eqn:Hs; [| done].
  exists n, s. eexists. split_and!; [done | done | reflexivity | | done ..].
  by rewrite dom_insert_L, dom_singleton_L.
Qed.

Lemma get_song_success_payload_witness :
  SONGS = SONGS
  ∧ ∃ (n : Z) (s : Song) (m : gmap string json),
      args_get_int int_ascii [("station", "0")] "station" = Some n
      ∧ SONGS !! n = Some s
      ∧ body (song_answer SONGS (Some 0)) = JObject m
      ∧ dom m = {[ "frequencies"; "durations" ]}
      ∧ m !! "frequencies" = Some (JArray (JNumber <$> frequencies s))
      ∧ m !! "durations" = Some (JArray (JNumber <$> durations s))
      ∧ m !! "name" = None.
Proof.
  apply (get_song_success_payload int_ascii [("station", "0")] SONGS SONGS
           (song_answer SONGS (Some 0))); reflexivity.
Defined.

(** C9: over a table that has an entry for every id from 0 to 9,
    [get_song] returns a response for every request and never the 404
    "not found" one. *)
Theorem get_song_never_not_found int (songs : gmap Z Song) :
  (∀ id, 0 ≤ id ≤ 9 → is_Some (songs !! id)) →
  ∀ args : Args,
    ∃ resp, get_song int args songs = (inr resp, songs) ∧ status resp ≠ 404.
Proof.
  intros Hfull args. rewrite get_song_run. eexists. split; [reflexivity |].
  unfold song_answer.
  destruct (args_get_int int args "station") as [n |]; [| done].
  case_bool_decide as Hrange; [done |].
  destruct (Hfull n) as [s ->]; [lia | done].
Qed.

Lemma get_song_never_not_found_witness :
  ∃ resp,
    get_song int_ascii [("station", "5")] SONGS = (inr resp, SONGS)
    ∧ status resp ≠ 404.
Proof.
  apply (get_song_never_not_found int_ascii SONGS
           (λ id Hid, proj1 (SONGS_populated id) Hid) [("station", "5")]).
Defined.

(** C8: [get_song] always returns a response and hands the table back
    unchanged; hence in any run of requests each answer is the one the same
    request gets on its own against the starting table, and two calls with
    the same parameters in one run get the same status and body. *)
Theorem get_song_repeatable int (songs : gmap Z Song) :
  (∀ args : Args, ∃ resp, get_song int args songs = (inr resp, songs))
  ∧ ∀ rs : list Request,
      ∃ resps : list Response,
        serve int rs songs = (inr resps, songs)
        ∧ Forall2 (λ r resp, dispatch int r songs = (inr resp, songs)) rs resps
        ∧ ∀ (i j : nat) (args : Args),
            rs !! i = Some (GET_song args) →
            rs !! j = Some (GET_song args) →
            ∃ resp, resps !! i = Some resp
                    ∧ resps !! j = Some resp
                    ∧ get_song int args songs = (inr resp, songs).
Proof.
  split.
  - intros args. rewrite get_song_run. eauto.
  - intros rs. destruct (serve_run int rs songs) as (resps & Hserve & Hall).
    exists resps. repeat split; [done | done |].
    intros i j args Hi Hj.
    destruct (Forall2_lookup_l _ _ _ _ _ Hall Hi) as (ri & Hri & Hdi).
    destruct (Forall2_lookup_l _ _ _ _ _ Hall Hj) as (rj & Hrj & Hdj).
    simpl in Hdi, Hdj. exists ri. repeat split; [done | | done].
    rewrite Hrj. congruence.
Qed.

Lemma get_song_repeatable_witness :
  ∃ resp,
    [song_answer SONGS (Some 4); song_answer SONGS None;
     song_answer SONGS (Some 4)] !! 0%nat = Some resp
    ∧ [song_answer SONGS (Some 4); song_answer SONGS None;
       song_answer SONGS (Some 4)] !! 2%nat = Some resp
    ∧ get_song int_ascii [("station", "4")] SONGS = (inr resp, SONGS).
Proof.
  destruct (proj2 (get_song_repeatable int_ascii SONGS)
              [GET_song [("station", "4")]; GET_song [];
               GET_song [("station", "4")]])
    as (resps & Hserve & _ & Hsame).
  injection Hserve as <-.
  apply (Hsame 0%nat 2%nat [("station", "4")]); reflexivity.
Defined.

(** The entry [list_stations] writes for one song. *)
Lemma stations_entry (songs : gmap Z Song) (id : Z) :
  kmap (M2 := gmap string) pretty
    ((λ song, JObject {[ "name" := JString (name song) ]}) <$> songs)
  !! pretty id
  = (λ song, JObject {[ "name" := JString (name song) ]}) <$> songs !! id.
Proof. rewrite lookup_kmap by apply _. apply lookup_fmap. Qed.

(** C5: [list_stations] always succeeds; its body maps the text of every
    station id of the table, and nothing else, to an object holding only
    that song's name, so an empty table gives an empty object; for the
    default table it has exactly the ten members "0" to "9", each with a
    non-empty name. *)
Theorem list_stations_mapping :
  (∀ songs : gmap Z Song,
     ∃ m : gmap string json,
       list_stations songs = (inr (mkResponse 200 (JObject m)), songs)
       ∧ (∀ id : Z,
            m !! pretty id
            = (λ s, JObject {[ "name" := JString (name s) ]}) <$> songs !! id)
       ∧ (∀ key : string,
            is_Some (m !! key) →
            ∃ id : Z, key = pretty id ∧ is_Some (songs !! id))
       ∧ size m = size songs
       ∧ (songs = ∅ → m = ∅))
  ∧ ∃ m : gmap string json,
      list_stations SONGS = (inr (mkResponse 200 (JObject m)), SONGS)
      ∧ size m = 10%nat
      ∧ dom m
        = list_to_set ["0"; "1"; "2"; "3"; "4"; "5"; "6"; "7"; "8"; "9"]
      ∧ ∀ (key : string) (v : json),
          m !! key = Some v →
          ∃ nm : string, v = JObject {[ "name" := JString nm ]} ∧ nm ≠ "".
Proof.
  split.
  - intros songs. eexists. split; [apply list_stations_run |].
    split_and!.
    + apply stations_entry.
    + intros key [v Hv].
      apply lookup_kmap_Some in Hv as (id & -> & Hid); [| apply _].
      exists id. split; [done |].
      rewrite lookup_fmap in Hid. by destruct (songs !! id).
    + by rewrite kmap_pretty_size, map_size_fmap.
    + intros ->. by rewrite fmap_empty, kmap_empty.
  - eexists. split; [apply list_stations_run |].
    split_and!.
    + by rewrite kmap_pretty_size, map_size_fmap, SONGS_size.
    + rewrite dom_kmap_L, dom_fmap_L, SONGS_dom by apply _.
      apply (bool_decide_unpack _). vm_compute. exact I.
    + intros key v Hv.
      apply lookup_kmap_Some in Hv as (id & -> & Hid); [| apply _].
      rewrite lookup_fmap in Hid.
      destruct (SONGS !! id) as [s |] eqn:Hs; [| done].
      injection Hid as <-. exists (name s). split; [done |].
      exact (SONGS_named id s Hs).
Qed.

Lemma list_stations_mapping_witness :
  ∃ id : Z, "7" = pretty id ∧ is_Some (SONGS !! id).
Proof.
  destruct (proj1 list_stations_mapping SONGS) as (m & _ & Hfwd & Hback & _).
  apply (Hback "7"). change (is_Some (m !! pretty 7)).
  rewrite (Hfwd 7). vm_compute. eauto.
Defined.

(** C6: [health] always succeeds with status "ok" and the number of
    entries of the table; for the default table the body is
    {"status": "ok", "stations": 10}. *)
Theorem health_reports_count :
  (∀ songs : gmap Z Song,
     health songs
     = (inr (mkResponse 200
               (JObject {[ "status" := JString "ok";
                           "stations" := JNumber (Z.of_nat (size songs)) ]})),
        songs))
  ∧ health SONGS
    = (inr (mkResponse 200
              (JObject {[ "status" := JString "ok";
                          "stations" := JNumber 10 ]})),
       SONGS).
Proof.
  split; [exact health_run |]. rewrite health_run, SONGS_size. reflexivity.
Qed.

(** C7: against the default table, [GET /song?station=0] answers exactly
    the C major scale with eight 500 ms durations, and
    [GET /song?station=4] answers with a frequencies array as long as the
    stored one in which every stored 0 (a rest; there are some) appears as
    0 at the same position. *)
Theorem get_song_scenarios int :
  int "0" = Some 0 →
  int "4" = Some 4 →
  get_song int [("station", "0")] SONGS
  = (inr (mkResponse 200
            (JObject
               {[ "frequencies" :=
                    JArray (JNumber <$> [262; 294; 330; 349; 392; 440; 494; 523]);
                  "durations" :=
                    JArray (JNumber <$> [500; 500; 500; 500; 500; 500; 500; 500]) ]})),
     SONGS)
  ∧ ∃ (stored : Song) (fs ds : list json),
      SONGS !! 4 = Some stored
      ∧ get_song int [("station", "4")] SONGS
        = (inr (mkResponse 200
                  (JObject {[ "frequencies" := JArray fs;
                              "durations" := JArray ds ]})),
           SONGS)
      ∧ length fs = length (frequencies stored)
      ∧ (∀ i : nat, frequencies stored !! i = Some 0 → fs !! i = Some (JNumber 0))
      ∧ (∃ i : nat, frequencies stored !! i = Some 0).
Proof.
  intros H0 H4. split.
  - rewrite get_song_run. unfold args_get_int. simpl. rewrite H0. reflexivity.
  - destruct (proj1 (SONGS_populated 4)) as [stored Hstored]; [lia |].
    exists stored, (JNumber <$> frequencies stored), (JNumber <$> durations stored).
    split_and!.
    + done.
    + rewrite get_song_run. unfold args_get_int. simpl. rewrite H4. simpl.
      rewrite Hstored. reflexivity.
    + by rewrite length_fmap.
    + intros i Hi. by rewrite list_lookup_fmap, Hi.
    + exists 2%nat. vm_compute in Hstored. by injection Hstored as <-.
Qed.

Lemma get_song_scenarios_witness :
  fst (get_song int_ascii [("station", "0")] SONGS)
  = inr (mkResponse 200
           (JObject
              {[ "frequencies" :=
                   JArray (JNumber <$> [262; 294; 330; 349; 392; 440; 494; 523]);
                 "durations" :=
                   JArray (JNumber <$> [500; 500; 500; 500; 500; 500; 500; 500]) ]})).
Proof.
  rewrite (proj1 (get_song_scenarios int_ascii eq_refl eq_refl)). reflexivity.
Defined.

(** C10: the three endpoints read one table.  For any table, the stations
    count of [health] is the number of members of the [list_stations]
    object, and a request whose parameter is read as the integer [id]
    succeeds at [get_song] exactly when [id] lies in 0..9 and the text of
    [id] is a member name of that object. *)
Theorem endpoints_agree int (songs : gmap Z Song) :
  ∃ (m : gmap string json) (count : Z),
    list_stations songs = (inr (mkResponse 200 (JObject m)), songs)
    ∧ health songs
      = (inr (mkResponse 200
                (JObject {[ "status" := JString "ok";
                            "stations" := JNumber count ]})),
         songs)
    ∧ count = Z.of_nat (size m)
    ∧ ∀ (args : Args) (id : Z),
        args_get_int int args "station" = Some id →
        ((∃ resp, get_song int args songs = (inr resp, songs)
                  ∧ status resp = 200)
         ↔ 0 ≤ id ≤ 9 ∧ is_Some (m !! pretty id)).
Proof.
  eexists _, _. split; [apply list_stations_run |].
  split; [apply health_run |].
  split; [by rewrite kmap_pretty_size, map_size_fmap |].
  intros args id Hid. rewrite stations_entry, fmap_is_Some.
  rewrite get_song_run, Hid. unfold song_answer.
  case_bool_decide as Hrange.
  - split; [| lia]. intros (resp & [= <-] & Hstatus). done.
  - destruct (songs !! id) as [s |].
    + split; [intros _; split; [lia | eauto] | eauto].
    + split; [| intros [_ []]; done].
      intros (resp & [= <-] & Hstatus). done.
Qed.

Lemma endpoints_agree_witness :
  ∃ (m : gmap string json) (count : Z),
    list_stations SONGS = (inr (mkResponse 200 (JObject m)), SONGS)
    ∧ health SONGS
      = (inr (mkResponse 200
                (JObject {[ "status" := JString "ok";
                            "stations" := JNumber count ]})),
         SONGS)
    ∧ count = Z.of_nat (size m)
    ∧ ((∃ resp, get_song int_ascii [("station", "9")] SONGS = (inr resp, SONGS)
                ∧ status resp = 200)
       ↔ 0 ≤ 9 ≤ 9 ∧ is_Some (m !! pretty 9)).
Proof.
  destruct (endpoints_agree int_ascii SONGS) as (m & count & Hl & Hh & Hc & Hiff).
  exists m, count. split_and!; [done | done | done |].
  apply (Hiff [("station", "9")] 9). reflexivity.
Defined.

(** ** Further properties of the handlers *)

(** X1: over any table, [get_song] answers 404 precisely for a parameter
    read as an id within 0..9 that has no entry, and the message then
    names that id. *)
Theorem get_song_not_found_iff int (args : Args) (songs : gmap Z Song) :
  (∀ n : Z,
     args_get_int int args "station" = Some n →
     0 ≤ n ≤ 9 →
     songs !! n = None →
     get_song int args songs
     = (inr (error_response ("Station " +:+ pretty n +:+ " not found") 404),
        songs))
  ∧ (∀ resp : Response,
       fst (get_song int args songs) = inr resp →
       status resp = 404 →
       ∃ n : Z,
         args_get_int int args "station" = Some n
         ∧ 0 ≤ n ≤ 9
         ∧ songs !! n = None
         ∧ resp = error_response ("Station " +:+ pretty n +:+ " not found") 404).
Proof.
  rewrite get_song_run. unfold song_answer. split.
  - intros n -> Hin ->. by rewrite bool_decide_eq_false_2 by lia.
  - intros resp [= <-] Hstatus.
    destruct (args_get_int int args "station") as [n |]; [| done].
    case_bool_decide as Hrange; [done |].
    destruct (songs !! n) as [s |] eqn:Hs; [done |].
    exists n. split_and!; [done | lia | lia | done | done].
Qed.

Lemma get_song_not_found_iff_witness :
  get_song int_ascii [("station", "3")] (delete 3 SONGS)
  = (inr (error_response "Station 3 not found" 404), delete 3 SONGS).
Proof.
  apply (proj1 (get_song_not_found_iff int_ascii [("station", "3")]
                  (delete 3 SONGS)) 3); [reflexivity | lia |].
  apply lookup_delete_eq.
Defined.

(** X2: over any table and for any request, [get_song] returns a response
    (the 500 arm is never taken) that is either status 200 with the two
    arrays, or status 400 or 404 with a body whose only member is a
    non-empty "error" message: never a mix of the two. *)
Theorem get_song_answer_shape int (args : Args) (songs : gmap Z Song) :
  ∃ resp : Response,
    get_song int args songs = (inr resp, songs)
    ∧ ((status resp = 200
        ∧ ∃ fs ds : list Z,
            body resp = JObject {[ "frequencies" := json_ints fs;
                                   "durations" := json_ints ds ]})
       ∨ ((status resp = 400 ∨ status resp = 404)
          ∧ ∃ msg : string,
              msg ≠ "" ∧ body resp = JObject {[ "error" := JString msg ]})).
Proof.
  rewrite get_song_run. eexists. split; [reflexivity |].
  unfold song_answer.
  destruct (args_get_int int args "station") as [n |].
  - case_bool_decide.
    + right. split; [by left |]. eexists. split; [| reflexivity]. done.
    + destruct (songs !! n) as [s |].
      * left. split; [done |]. by eexists _, _.
      * right. split; [by right |]. eexists. split; [| reflexivity]. done.
  - right. split; [by left |]. eexists. split; [| reflexivity]. done.
Qed.

(** X3: the range 0..9 is fixed in [get_song], whatever the table holds.
    An entry stored under an id outside 0..9 is listed by [list_stations]
    under its text, yet a request for it gets the 400 range answer. *)
Theorem out_of_range_entry_listed_not_served int (args : Args)
    (songs : gmap Z Song) (n : Z) (s : Song) :
  songs !! n = Some s →
  n < 0 ∨ 9 < n →
  args_get_int int args "station" = Some n →
  (∃ m : gmap string json,
     list_stations songs = (inr (mkResponse 200 (JObject m)), songs)
     ∧ m !! pretty n = Some (JObject {[ "name" := JString (name s) ]}))
  ∧ get_song int args songs
    = (inr (error_response "Station must be between 0 and 9" 400), songs).
Proof.
  intros Hs Hout Hn. split.
  - eexists. split; [apply list_stations_run |].
    by rewrite stations_entry, Hs.
  - rewrite get_song_run, Hn. unfold song_answer.
    by rewrite bool_decide_eq_true_2 by lia.
Qed.

Lemma out_of_range_entry_listed_not_served_witness :
  (∃ m : gmap string json,
     list_stations (<[10 := mkSong "Extra" [440] [500]]> SONGS)
     = (inr (mkResponse 200 (JObject m)),
        <[10 := mkSong "Extra" [440] [500]]> SONGS)
     ∧ m !! pretty 10 = Some (JObject {[ "name" := JString "Extra" ]}))
  ∧ get_song int_ascii [("station", "10")]
      (<[10 := mkSong "Extra" [440] [500]]> SONGS)
    = (inr (error_response "Station must be between 0 and 9" 400),
       <[10 := mkSong "Extra" [440] [500]]> SONGS).
Proof.
  apply (out_of_range_entry_listed_not_served int_ascii [("station", "10")]
           (<[10 := mkSong "Extra" [440] [500]]> SONGS) 10
           (mkSong "Extra" [440] [500]));
    [apply lookup_insert_eq | lia | reflexivity].
Defined.

(** X4: [get_song] reads nothing of the query but the first value sent
    under "station": parameters of another name change nothing, nor does
    anything that follows a first "station". *)
Theorem get_song_reads_first_station int (songs : gmap Z Song) :
  (∀ (k v : string) (args : Args),
     k ≠ "station" →
     get_song int ((k, v) :: args) songs = get_song int args songs)
  ∧ (∀ (v : string) (more : Args),
       get_song int (("station", v) :: more) songs
       = get_song int [("station", v)] songs)
  ∧ (∀ (args more : Args),
       is_Some (args_lookup args "station") →
       get_song int (args ++ more)%list songs = get_song int args songs).
Proof.
  split_and!.
  - intros k v args Hk. rewrite !get_song_run. unfold args_get_int. simpl.
    by rewrite decide_False.
  - intros v more. rewrite !get_song_run. unfold args_get_int.
    by rewrite !args_lookup_first.
  - intros args more Hsome. rewrite !get_song_run. unfold args_get_int.
    f_equal. f_equal. f_equal.
    induction args as [| [k v] args IH]; simpl in *.
    + by destruct Hsome.
    + case_decide; [done |]. by apply IH.
Qed.

Lemma get_song_reads_first_station_witness :
  get_song int_ascii ([("station", "2")] ++ [("station", "99"); ("x", "y")])%list SONGS
  = get_song int_ascii [("station", "2")] SONGS.
Proof.
  apply (proj2 (proj2 (get_song_reads_first_station int_ascii SONGS))).
  simpl. eauto.
Defined.

(** X5: the handler keeps what the table guarantees.  Over any table whose
    songs are all well formed, every 200 answer of [get_song] carries two
    arrays of the same non-zero length, with positive durations and no
    negative frequency. *)
Theorem get_song_keeps_pairing int (songs : gmap Z Song) (args : Args)
    (resp : Response) :
  map_Forall (λ _ s, song_ok s) songs →
  fst (get_song int args songs) = inr resp →
  status resp = 200 →
  ∃ fs ds : list Z,
    body resp = JObject {[ "frequencies" := json_ints fs;
                           "durations" := json_ints ds ]}
    ∧ length fs = length ds
    ∧ (0 < length fs)%nat
    ∧ Forall (λ d, 0 < d) ds
    ∧ Forall (λ f, 0 ≤ f) fs.
Proof.
  intros Hok. rewrite get_song_run. intros [= <-]. unfold song_answer.
  destruct (args_get_int int args "station") as [n |]; [| done].
  case_bool_decide; [done |].
  destruct (songs !! n) as [s |] eqn:Hs; [| done].
  intros _. destruct (Hok n s Hs) as (Hlen & Hpos & Hfs & Hds).
  by exists (frequencies s), (durations s).
Qed.

Lemma get_song_keeps_pairing_witness :
  ∃ fs ds : list Z,
    body (song_answer (delete 0 SONGS) (Some 6))
    = JObject {[ "frequencies" := json_ints fs; "durations" := json_ints ds ]}
    ∧ length fs = length ds
    ∧ (0 < length fs)%nat
    ∧ Forall (λ d, 0 < d) ds
    ∧ Forall (λ f, 0 ≤ f) fs.
Proof.
  apply (get_song_keeps_pairing int_ascii (delete 0 SONGS) [("station", "6")]).
  - apply map_Forall_delete, SONGS_song_ok.
  - reflexivity.
  - reflexivity.
Defined.

(** ** The reader reads what [str] writes *)

Lemma digit_of_pretty_N_char (d : N) :
  (d < 10)%N → digit_of (pretty_N_char d) = Some (Z.of_N d).
Proof.
  intros Hd.
  assert (Hcase : (d = 0 ∨ d = 1 ∨ d = 2 ∨ d = 3 ∨ d = 4 ∨ d = 5 ∨ d = 6
                   ∨ d = 7 ∨ d = 8 ∨ d = 9)%N) by lia.
  repeat (destruct Hcase as [-> | Hcase]; [reflexivity |]).
  by subst d.
Qed.

Lemma digits_value_pretty_N_go (x : N) (s : string) :
  digits_value 0 (pretty_N_go x s) = digits_value (Z.of_N x) s.
Proof.
  revert s. induction (N.lt_wf_0 x) as [x _ IH]. intros s.
  destruct (decide (x = 0)%N) as [-> | Hx]; [done |].
  rewrite pretty_N_go_step by lia.
  rewrite IH by (apply N.div_lt; lia). simpl.
  rewrite digit_of_pretty_N_char by (apply N.mod_lt; lia).
  f_equal. rewrite (N.div_mod x 10) at 3 by done.
  rewrite N2Z.inj_add, N2Z.inj_mul. done.
Qed.

Lemma pretty_N_go_head (x : N) (s : string) :
  (0 < x)%N →
  ∃ (d : N) (rest : string),
    (d < 10)%N ∧ pretty_N_go x s = String (pretty_N_char d) rest.
Proof.
  revert s. induction (N.lt_wf_0 x) as [x _ IH]. intros s Hx.
  rewrite pretty_N_go_step by done.
  destruct (decide (x `div` 10 = 0)%N) as [-> | Hdiv].
  - exists (x `mod` 10)%N, s. split; [apply N.mod_lt; lia | done].
  - apply IH; [apply N.div_lt; lia | by apply N.neq_0_lt_0].
Qed.

Lemma int_ascii_digit_head (d : N) (rest : string) :
  (d < 10)%N →
  int_ascii (String (pretty_N_char d) rest)
  = digits_value 0 (String (pretty_N_char d) rest).
Proof.
  intros Hd.
  assert (Hcase : (d = 0 ∨ d = 1 ∨ d = 2 ∨ d = 3 ∨ d = 4 ∨ d = 5 ∨ d = 6
                   ∨ d = 7 ∨ d = 8 ∨ d = 9)%N) by lia.
  repeat (destruct Hcase as [-> | Hcase]; [reflexivity |]).
  by subst d.
Qed.

Lemma unsigned_int_pretty_positive (p : positive) :
  unsigned_int (pretty p) = Some (Z.pos p)
  ∧ int_ascii (pretty p) = Some (Z.pos p).
Proof.
  unfold pretty, pretty_positive, pretty, pretty_N.
  rewrite decide_False by done.
  destruct (pretty_N_go_head (N.pos p) "") as (d & rest & Hd & Hhead); [lia |].
  assert (Hvalue : digits_value 0 (pretty_N_go (N.pos p) "") = Some (Z.pos p)).
  { by rewrite digits_value_pretty_N_go. }
  rewrite Hhead in *. split; [done |]. by rewrite int_ascii_digit_head.
Qed.

(** [int(str(n)) == n] for the reader of the instances. *)
Lemma int_ascii_pretty (n : Z) : int_ascii (pretty n) = Some n.
Proof.
  destruct n as [| p | p]; [done | apply unsigned_int_pretty_positive |].
  change (Z.opp <$> unsigned_int (pretty p) = Some (Z.neg p)).
  by rewrite (proj1 (unsigned_int_pretty_positive p)).
Qed.

(** ** What the client computes *)

Lemma strip_prefix_app (p s : string) : strip_prefix p (p +:+ s) = Some s.
Proof. induction p as [| a p IH]; simpl; [done |]. by rewrite decide_True. Qed.

(** The network of one server carries its routes. *)
Lemma loopback_serves int (songs : gmap Z Song) (base_url : string) :
  serves int (loopback int songs base_url) base_url songs.
Proof.
  unfold serves, loopback. split_and!.
  - intros resp Hresp. rewrite strip_prefix_app.
    change (handler_reply health songs = on_wire resp).
    unfold handler_reply. by rewrite Hresp.
  - intros resp Hresp. rewrite strip_prefix_app.
    change (handler_reply list_stations songs = on_wire resp).
    unfold handler_reply. by rewrite Hresp.
  - intros n resp Hresp. rewrite strip_prefix_app.
    rewrite (strip_prefix_app "/song?station=" (pretty n)).
    unfold handler_reply. by rewrite Hresp.
Qed.

(** A response on the wire reaches the caller of [make_request] as its
    status and body, whether it came as a success or as an [HTTPError]. *)
Lemma make_request_on_wire (urlopen : string → Reply) (url : string)
    (resp : Response) (out : list string) :
  urlopen url = on_wire resp →
  make_request urlopen url out = (inr (status resp, body resp), out).
Proof.
  unfold make_request, on_wire. intros ->. by case_bool_decide.
Qed.


(** ** The client against a network, and against the server *)

(** X6: whatever the flags, when the first URL the client asks for cannot
    be reached ([URLError]), it prints the request line and the two error
    lines, then leaves with exit status 1: nothing else is printed. *)
Theorem main_unreachable_server int (urlopen : string → Reply)
    (dumps : json → string) (dict_keys : gmap string json → list string)
    (py_repr : json → string) (args : CliArgs) (reason : string) :
  let base_url := "http://" +:+ arg_host args +:+ ":" +:+ pretty (arg_port args) in
  let url :=
    if arg_health args then base_url +:+ "/health"
    else match arg_station args with
         | Some n => base_url +:+ "/song?station=" +:+ pretty n
         | None => base_url +:+ "/stations"
         end in
  urlopen url = Reply_URLError reason →
  main int urlopen dumps dict_keys py_repr args []
  = (inl (SysExit 1),
     ["GET " +:+ url;
      "Error: Could not connect to server at " +:+ url;
      "  Reason: " +:+ reason]).
Proof.
  destruct args as [h p st fh fa]. simpl. intros Hurl.
  unfold main. simpl.
  destruct fh; [| destruct st as [n |]; [| destruct fa]];
    unfold mbind, Client_bind, print, make_request; simpl;
    rewrite Hurl; reflexivity.
Qed.

Lemma main_unreachable_server_witness :
  main int_ascii (λ _, Reply_URLError "refused") (λ _, "")
    (λ m, (map_to_list m).*1) (λ _, "") (mkCliArgs "10.0.0.5" 8080 None false true) []
  = (inl (SysExit 1),
     ["GET http://10.0.0.5:8080/stations";
      "Error: Could not connect to server at http://10.0.0.5:8080/stations";
      "  Reason: refused"]).
Proof.
  apply (main_unreachable_server int_ascii (λ _, Reply_URLError "refused")
           (λ _, "") (λ m, (map_to_list m).*1) (λ _, "")
           (mkCliArgs "10.0.0.5" 8080 None false true) "refused").
  reflexivity.
Defined.

(** X7: with [--health], whatever the other flags, the client against the
    server prints the request line, "Status: 200" and the dump of the
    health document with the size of the table, and runs to its end. *)
Theorem main_health_shows_count int (urlopen : string → Reply)
    (dumps : json → string) (dict_keys : gmap string json → list string)
    (py_repr : json → string) (songs : gmap Z Song) (h : string) (p : Z)
    (st : option Z) (fa : bool) :
  serves int urlopen ("http://" +:+ h +:+ ":" +:+ pretty p) songs →
  main int urlopen dumps dict_keys py_repr (mkCliArgs h p st true fa) []
  = (inr (),
     ["GET " +:+ ("http://" +:+ h +:+ ":" +:+ pretty p) +:+ "/health";
      "Status: 200";
      dumps (JObject {[ "status" := JString "ok";
                        "stations" := JNumber (Z.of_nat (size songs)) ]})]).
Proof.
  intros (Hhealth & _ & _).
  unfold main. simpl. unfold mbind, Client_bind, print at 1.
  rewrite (make_request_on_wire urlopen _ _ _ (Hhealth _ (f_equal fst (health_run songs)))).
  reflexivity.
Qed.

Lemma main_health_shows_count_witness :
  main int_ascii (loopback int_ascii SONGS ("http://" +:+ "esp" +:+ ":" +:+ pretty 5000))
    (λ _, "{..}") (λ m, (map_to_list m).*1) (λ _, "") (mkCliArgs "esp" 5000 (Some 3) true true) []
  = (inr (),
     ["GET " +:+ ("http://" +:+ "esp" +:+ ":" +:+ pretty 5000) +:+ "/health";
      "Status: 200"; "{..}"]).
Proof.
  apply (main_health_shows_count int_ascii
           (loopback int_ascii SONGS ("http://" +:+ "esp" +:+ ":" +:+ pretty 5000))
           (λ _, "{..}") (λ m, (map_to_list m).*1) (λ _, "") SONGS "esp" 5000
           (Some 3) true).
  apply loopback_serves.
Defined.

(** X8: with [--station n] (and no [--health]), the client against the
    server runs to its end whatever the server answers: it prints the
    request line, the status of the answer of [get_song] to the text of
    [n], and the dump of its body; an error answer is shown like a song. *)
Theorem main_station_shows_answer int (urlopen : string → Reply)
    (dumps : json → string) (dict_keys : gmap string json → list string)
    (py_repr : json → string) (songs : gmap Z Song) (h : string) (p n : Z)
    (fa : bool) :
  serves int urlopen ("http://" +:+ h +:+ ":" +:+ pretty p) songs →
  ∃ resp : Response,
    get_song int [("station", pretty n)] songs = (inr resp, songs)
    ∧ main int urlopen dumps dict_keys py_repr (mkCliArgs h p (Some n) false fa) []
      = (inr (),
         ["GET " +:+ ("http://" +:+ h +:+ ":" +:+ pretty p)
                 +:+ "/song?station=" +:+ pretty n;
          "Status: " +:+ pretty (status resp);
          dumps (body resp)]).
Proof.
  intros (_ & _ & Hsong). eexists. split; [apply get_song_run |].
  unfold main. simpl. unfold mbind, Client_bind, print at 1.
  rewrite (make_request_on_wire urlopen _ _ _
             (Hsong n _ (f_equal fst (get_song_run int _ songs)))).
  reflexivity.
Qed.

Lemma main_station_shows_answer_witness :
  ∃ resp : Response,
    get_song int_ascii [("station", pretty 12)] SONGS = (inr resp, SONGS)
    ∧ main int_ascii
        (loopback int_ascii SONGS ("http://" +:+ "esp" +:+ ":" +:+ pretty 5000))
        (λ _, "{..}") (λ m, (map_to_list m).*1) (λ _, "")
        (mkCliArgs "esp" 5000 (Some 12) false false) []
      = (inr (),
         ["GET " +:+ ("http://" +:+ "esp" +:+ ":" +:+ pretty 5000)
                 +:+ "/song?station=" +:+ pretty 12;
          "Status: " +:+ pretty (status resp);
          "{..}"]).
Proof.
  apply (main_station_shows_answer int_ascii
           (loopback int_ascii SONGS ("http://" +:+ "esp" +:+ ":" +:+ pretty 5000))
           (λ _, "{..}") (λ m, (map_to_list m).*1) (λ _, "") SONGS "esp" 5000 12
           false).
  apply loopback_serves.
Defined.




Example main_all_report_lines :
  snd (main int_ascii
         (loopback int_ascii (delete 3 SONGS) "http://esp:5000")
         (λ _, "{..}") (λ m, (map_to_list m).*1) (λ _, "")
         (mkCliArgs "esp" 5000 None false true) [])
  !! 10%nat = Some "GET http://esp:5000/song?station=3"
  ∧ snd (main int_ascii
           (loopback int_ascii (delete 3 SONGS) "http://esp:5000")
           (λ _, "{..}") (λ m, (map_to_list m).*1) (λ _, "")
           (mkCliArgs "esp" 5000 None false true) [])
    !! 11%nat = Some "  Station 3 (Unknown): 0 notes"
  ∧ snd (main int_ascii
           (loopback int_ascii (delete 3 SONGS) "http://esp:5000")
           (λ _, "{..}") (λ m, (map_to_list m).*1) (λ _, "")
           (mkCliArgs "esp" 5000 None false true) [])
    !! 13%nat = Some "  Station 4 (Mario Theme): 43 notes".
Proof. vm_compute. done. Qed.

(** ** The listing in the order of the ids *)

Lemma insert_by_key_perm (x : Z * string) (l : list (Z * string)) :
  insert_by_key x l ≡ₚ x :: l.
Proof.
  induction l as [| y l IH]; simpl; [done |].
  case_bool_decide; [done |]. by rewrite IH, Permutation_swap.
Qed.

Lemma sorted_by_key_perm (l : list (Z * string)) : sorted_by_key l ≡ₚ l.
Proof.
  induction l as [| x l IH]; simpl; [done |].
  by rewrite insert_by_key_perm, IH.
Qed.

Lemma insert_by_key_sorted (x : Z * string) (l : list (Z * string)) :
  StronglySorted (λ a b, a.1 ≤ b.1) l →
  StronglySorted (λ a b, a.1 ≤ b.1) (insert_by_key x l).
Proof.
  induction l as [| y l IH]; simpl; intros Hsorted.
  - repeat constructor.
  - apply StronglySorted_cons in Hsorted as [Hy Hl].
    case_bool_decide as Hxy.
    + apply StronglySorted_cons. split; [| by apply StronglySorted_cons].
      constructor; [done |].
      eapply Forall_impl; [exact Hy |]. simpl. intros z Hz. lia.
    + apply StronglySorted_cons. split; [| by apply IH].
      rewrite insert_by_key_perm. constructor; [lia | done].
Qed.

Lemma sorted_by_key_sorted (l : list (Z * string)) :
  StronglySorted (λ a b, a.1 ≤ b.1) (sorted_by_key l).
Proof.
  induction l as [| x l IH]; simpl; [constructor |].
  by apply insert_by_key_sorted.
Qed.

Lemma int_keys_pretty int (ids : list Z) (out : list string) :
  Forall (λ id, int (pretty id) = Some id) ids →
  int_keys int (pretty <$> ids) out
  = (inr ((λ id, (id, pretty id)) <$> ids), out).
Proof.
  induction 1 as [| id ids Hid _ IH]; [done |].
  rewrite !fmap_cons. cbn [int_keys]. rewrite Hid.
  unfold mbind, Client_bind. by rewrite IH.
Qed.

Lemma int_keys_refused int (ks : list string) (k : string) (out : list string) :
  k ∈ ks →
  int k = None →
  int_keys int ks out = (inl (Uncaught ValueError), out).
Proof.
  intros Hk Hnone. induction ks as [| k' ks IH]; simpl.
  - by apply elem_of_nil in Hk.
  - destruct (int k') as [n |] eqn:Hk'; [| done].
    apply elem_of_cons in Hk as [-> | Hk]; [congruence |].
    unfold mbind, Client_bind. by rewrite IH.
Qed.

(** X11: without flags, when the listing the client receives is an object
    one of whose member names [int] does not read, the client dies of
    [ValueError] after the three heading lines: no station is listed. *)
Theorem main_listing_refuses_key int (urlopen : string → Reply)
    (dumps : json → string) (dict_keys : gmap string json → list string)
    (py_repr : json → string) (h : string) (p code : Z)
    (m : gmap string json) (k : string) :
  urlopen (("http://" +:+ h +:+ ":" +:+ pretty p) +:+ "/stations")
  = Reply_ok code (Some (JObject m)) →
  k ∈ dict_keys m →
  int k = None →
  main int urlopen dumps dict_keys py_repr (mkCliArgs h p None false false) []
  = (inl (Uncaught ValueError),
     ["GET " +:+ ("http://" +:+ h +:+ ":" +:+ pretty p) +:+ "/stations";
      "Status: " +:+ pretty code;
      ""]).
Proof.
  intros Hurl Hk Hnone.
  unfold main. cbn [arg_health arg_station arg_all arg_host arg_port].
  unfold mbind at 1 2. unfold Client_bind at 1 2. unfold print at 1.
  unfold make_request. rewrite Hurl.
  unfold mret, Client_ret. unfold mbind at 1 2 3. unfold Client_bind at 1 2 3.
  unfold print at 1 2. unfold sorted_keys.
  unfold mbind at 1. unfold Client_bind at 1.
  by rewrite (int_keys_refused int _ k).
Qed.

Lemma main_listing_refuses_key_witness :
  main int_ascii (λ _, Reply_ok 200 (Some (JObject {[ "one" := JObject ∅ ]})))
    (λ _, "") (λ m, (map_to_list m).*1) (λ _, "")
    (mkCliArgs "esp" 5000 None false false) []
  = (inl (Uncaught ValueError),
     ["GET " +:+ ("http://" +:+ "esp" +:+ ":" +:+ pretty 5000) +:+ "/stations";
      "Status: " +:+ pretty 200;
      ""]).
Proof.
  apply (main_listing_refuses_key int_ascii
           (λ _, Reply_ok 200 (Some (JObject {[ "one" := JObject ∅ ]})))
           (λ _, "") (λ m, (map_to_list m).*1) (λ _, "") "esp" 5000 200
           {[ "one" := JObject ∅ ]} "one").
  - reflexivity.
  - rewrite map_to_list_singleton. by left.
  - reflexivity.
Defined.

Lemma for_each_fmap_prints {A B} (f : A → B) (l : list A)
    (body : B → Client unit) (lines : A → list string) (out : list string) :
  (∀ x out', x ∈ l → body (f x) out' = (inr (), (out' ++ lines x)%list)) →
  for_each (f <$> l) body out = (inr (), (out ++ concat (lines <$> l))%list).
Proof.
  revert out. induction l as [| x l IH]; intros out Hbody.
  - simpl. by rewrite app_nil_r.
  - rewrite !fmap_cons. cbn [for_each concat].
    unfold mbind, Client_bind. rewrite Hbody by left.
    rewrite IH by (intros; apply Hbody; by right).
    by rewrite app_assoc.
Qed.

Lemma concat_singletons {A B} (g : A → B) (l : list A) :
  concat ((λ x, [g x]) <$> l) = g <$> l.
Proof.
  induction l as [| x l IH]; [done |].
  rewrite !fmap_cons. cbn [concat app]. by rewrite IH.
Qed.

(** The line of one station in the listing. *)
Lemma listing_step (py_repr : json → string) (songs : gmap Z Song)
    (id : Z) (s : Song) (out : list string) :
  songs !! id = Some s →
  (info ← py_subscript
            (JObject (kmap pretty
               ((λ song, JObject {[ "name" := JString (name song) ]}) <$> songs)))
            (pretty id);
   name ← py_subscript info "name";
   print ("  Station " +:+ pretty id +:+ ": " +:+ py_str py_repr name)) out
  = (inr (), (out ++ ["  Station " +:+ pretty id +:+ ": " +:+ name s])%list).
Proof.
  intros Hs. unfold mbind, Client_bind, py_subscript at 1.
  rewrite stations_entry, Hs. simpl. by rewrite lookup_singleton_eq.
Qed.

(** The lines of the listing, for keys that are the texts of stored ids. *)
Lemma listing_loop (py_repr : json → string) (songs : gmap Z Song)
    (entries : list (Z * Song)) (out : list string) :
  Forall (λ e, songs !! e.1 = Some e.2) entries →
  for_each (pretty <$> entries.*1)
    (λ station_id,
       info ← py_subscript
                 (JObject (kmap pretty
                    ((λ song, JObject {[ "name" := JString (name song) ]}) <$> songs)))
                 station_id;
       name ← py_subscript info "name";
       print ("  Station " +:+ station_id +:+ ": " +:+ py_str py_repr name)) out
  = (inr (),
     (out ++ ((λ e, "  Station " +:+ pretty e.1 +:+ ": " +:+ name e.2) <$> entries))%list).
Proof.
  intros Hentries. rewrite <- list_fmap_compose.
  rewrite <- (concat_singletons
                (λ e : Z * Song, "  Station " +:+ pretty e.1 +:+ ": " +:+ name e.2)).
  apply for_each_fmap_prints. intros [id s] out' Hin.
  apply (listing_step py_repr songs id s).
  exact (proj1 (Forall_forall _ _) Hentries _ Hin).
Qed.

(** Entries for a list of stored ids. *)
Lemma entries_of_ids (songs : gmap Z Song) (ids : list Z) :
  Forall (λ id, is_Some (songs !! id)) ids →
  ∃ entries : list (Z * Song),
    entries.*1 = ids ∧ Forall (λ e, songs !! e.1 = Some e.2) entries.
Proof.
  induction 1 as [| id ids [s Hs] _ (entries & <- & Hentries)].
  - by exists [].
  - exists ((id, s) :: entries). split; [done | by constructor].
Qed.

(** X10: without flags, the client against a server holding any table
    runs to its end and, after the three heading lines, lists every
    station of the table exactly once with its name, in ascending order of
    the ids, in whatever order the listing document named them. *)
Theorem main_listing_ascending int (urlopen : string → Reply)
    (dumps : json → string) (dict_keys : gmap string json → list string)
    (py_repr : json → string) (songs : gmap Z Song) (h : string) (p : Z) :
  serves int urlopen ("http://" +:+ h +:+ ":" +:+ pretty p) songs →
  (∀ m : gmap string json, dict_keys m ≡ₚ (map_to_list m).*1) →
  (∀ id : Z, is_Some (songs !! id) → int (pretty id) = Some id) →
  ∃ entries : list (Z * Song),
    entries ≡ₚ map_to_list songs
    ∧ StronglySorted (λ a b, a.1 < b.1) entries
    ∧ main int urlopen dumps dict_keys py_repr (mkCliArgs h p None false false) []
      = (inr (),
         (["GET " +:+ ("http://" +:+ h +:+ ":" +:+ pretty p) +:+ "/stations";
           "Status: 200";
           ""]
          ++ ((λ e, "  Station " +:+ pretty e.1 +:+ ": " +:+ name e.2)
                <$> entries))%list).
Proof.
  intros (_ & Hstations & _) Hkeys Hint.
  set (listing := kmap (M2 := gmap string) pretty
         ((λ song, JObject {[ "name" := JString (name song) ]}) <$> songs)).
  (* the keys of the listing are the texts of the ids, in some order *)
  assert (Hperm : dict_keys listing ≡ₚ pretty <$> (map_to_list songs).*1).
  { rewrite Hkeys. unfold listing.
    rewrite map_to_list_kmap by apply _. rewrite map_to_list_fmap.
    rewrite <- !list_fmap_compose. done. }
  apply Permutation_map_inv in Hperm as (ids & Hids & Hids_perm).
  assert (Hstored : Forall (λ id, is_Some (songs !! id)) ids).
  { rewrite <- Hids_perm. apply Forall_forall. intros id Hid.
    apply list_elem_of_fmap in Hid as ([id' s] & -> & Hin).
    apply elem_of_map_to_list in Hin. by eexists. }
  assert (Hnodup : NoDup ids).
  { rewrite <- Hids_perm. apply NoDup_fst_map_to_list. }
  (* sorting them by their value *)
  set (keyed := (λ id, (id, pretty id)) <$> ids).
  pose proof (sorted_by_key_perm keyed) as Hsorted_perm.
  pose proof (sorted_by_key_sorted keyed) as Hsorted.
  assert (Hpairs : Forall (λ x : Z * string, x.2 = pretty x.1) (sorted_by_key keyed)).
  { rewrite Hsorted_perm. unfold keyed. apply Forall_fmap, Forall_true. done. }
  assert (Hfst : (sorted_by_key keyed).*1 ≡ₚ ids).
  { rewrite Hsorted_perm. unfold keyed. clear.
    induction ids as [| id ids IH]; [done |].
    rewrite !fmap_cons. by rewrite IH. }
  assert (Hsnd : (sorted_by_key keyed).*2 = pretty <$> (sorted_by_key keyed).*1).
  { clear -Hpairs. induction Hpairs as [| x l Hx _ IH]; [done |].
    rewrite !fmap_cons. by rewrite Hx, IH. }
  destruct (entries_of_ids songs (sorted_by_key keyed).*1) as (entries & Hentries & Hlookup).
  { by rewrite Hfst. }
  exists entries. split_and!.
  - apply NoDup_Permutation.
    + apply (NoDup_fmap_1 fst). rewrite Hentries, Hfst. done.
    + apply NoDup_map_to_list.
    + intros [id s]. rewrite elem_of_map_to_list. split.
      * intros Hin. by apply (proj1 (Forall_forall _ _) Hlookup (id, s)).
      * intros Hs.
        assert (Hid : id ∈ entries.*1).
        { rewrite Hentries, Hfst, <- Hids_perm.
          apply list_elem_of_fmap. exists (id, s).
          split; [done | by apply elem_of_map_to_list]. }
        apply list_elem_of_fmap in Hid as ([id' s'] & Heq & Hin).
        simpl in Heq. subst id'.
        pose proof (proj1 (Forall_forall _ _) Hlookup _ Hin) as Hs'.
        simpl in Hs'. by simplify_eq.
  - assert (Hstrict : StronglySorted Z.lt entries.*1).
    { rewrite Hentries.
      assert (Hnd : NoDup (sorted_by_key keyed).*1) by by rewrite Hfst.
      apply (StronglySorted_fmap fst _ Z.le) in Hsorted; [| done].
      clear -Hsorted Hnd.
      induction Hsorted as [| x l _ IH Hx]; [constructor |].
      apply NoDup_cons in Hnd as [Hx_notin Hnd].
      constructor; [by apply IH |].
      apply Forall_forall. intros y Hy.
      pose proof (proj1 (Forall_forall _ _) Hx y Hy).
      assert (x ≠ y) by (intros ->; done). lia. }
    clear -Hstrict. induction entries as [| e entries IH]; [constructor |].
    rewrite fmap_cons in Hstrict.
    apply StronglySorted_cons in Hstrict as [He Hrest].
    constructor; [by apply IH |].
    rewrite Forall_fmap in He. exact He.
  - unfold main. cbn [arg_health arg_station arg_all arg_host arg_port].
    unfold mbind at 1 2. unfold Client_bind at 1 2. unfold print at 1.
    rewrite (make_request_on_wire urlopen _ _ _
               (Hstations _ (f_equal fst (list_stations_run songs)))).
    cbn [status body]. unfold mbind at 1 2 3. unfold Client_bind at 1 2 3.
    unfold print at 1 2. unfold sorted_keys. fold listing.
    unfold mbind at 1 2. unfold Client_bind at 1 2.
    rewrite Hids. rewrite int_keys_pretty.
    2:{ eapply Forall_impl; [exact Hstored |]. exact Hint. }
    fold keyed. unfold mret, Client_ret.
    rewrite Hsnd, <- Hentries. unfold listing.
    rewrite (listing_loop py_repr songs entries _ Hlookup).
    rewrite <- !app_assoc. reflexivity.
Qed.

Lemma main_listing_ascending_witness :
  ∃ entries : list (Z * Song),
    entries ≡ₚ map_to_list SONGS
    ∧ StronglySorted (λ a b, a.1 < b.1) entries
    ∧ main int_ascii
        (loopback int_ascii SONGS ("http://" +:+ "esp" +:+ ":" +:+ pretty 5000))
        (λ _, "") (λ m, reverse (map_to_list m).*1) (λ _, "")
        (mkCliArgs "esp" 5000 None false false) []
      = (inr (),
         (["GET " +:+ ("http://" +:+ "esp" +:+ ":" +:+ pretty 5000) +:+ "/stations";
           "Status: 200";
           ""]
          ++ ((λ e, "  Station " +:+ pretty e.1 +:+ ": " +:+ name e.2)
                <$> entries))%list).
Proof.
  apply (main_listing_ascending int_ascii
           (loopback int_ascii SONGS ("http://" +:+ "esp" +:+ ":" +:+ pretty 5000))
           (λ _, "") (λ m, reverse (map_to_list m).*1) (λ _, "") SONGS "esp" 5000).
  - apply loopback_serves.
  - intros m. apply reverse_Permutation.
  - intros id _. apply int_ascii_pretty.
Defined.

Example main_listing_lines :
  snd (main int_ascii (loopback int_ascii SONGS "http://esp:5000")
         (λ _, "") (λ m, reverse (map_to_list m).*1) (λ _, "")
         (mkCliArgs "esp" 5000 None false false) [])
  = ["GET http://esp:5000/stations"; "Status: 200"; "";
     "  Station 0: C Major Scale";
     "  Station 1: Twinkle Twinkle Little Star";
     "  Station 2: Happy Birthday";
     "  Station 3: Jingle Bells";
     "  Station 4: Mario Theme";
     "  Station 5: Star Wars Theme";
     "  Station 6: Fur Elise";
     "  Station 7: Ode to Joy";
     "  Station 8: Canon in D";
     "  Station 9: Chromatic Scale"].
Proof. vm_compute. reflexivity. Qed.
